(** * KBS: the triangular fuzzy number of [main.py] and its derivative

    [main.py] defines the class [FuzzyTriangle] (a validating constructor,
    [derivative], [__repr__], [plot]) and a script that reads three numbers,
    builds a fuzzy number, derives a second one and draws four panels, all
    inside one [try ... except ValueError].

    The class is duck typed: it only uses [>=], [-], [+] and [2 * _] on its
    arguments.  The embedding is therefore written once, over a record of
    these operations ([pynum]), and run at two number types:
    - [exact R], the arithmetic of any totally ordered ring [R] (Python's
      [int] and [Fraction], the reals of the specification);
    - [float64], IEEE 754 binary64 with round to nearest even, which is what
      the script feeds the class ([float(input(...))]).

    Python objects are mutable and have identity, so instances live in a
    store and are handled through references; the script's console and figure
    output is an event trace.  Both are threaded by a state and exception
    monad. *)

From Stdlib Require Import String Ascii Floats ZArith PArith.
From mathcomp Require Import ssreflect ssrfun ssrbool eqtype ssrnat seq.
From mathcomp Require Import order ssralg ssrnum ssrint.

Set Implicit Arguments.
Unset Strict Implicit.
Unset Printing Implicit Defensive.

Import Order.TTheory GRing.Theory Num.Theory.

(** ** Numbers *)

(** What [FuzzyTriangle] and the script ask of a number. [two] is the Python
    literal [2] once coerced to the number type ([2 * x] and [a - 2] with a
    float [x] compute with [2.0]); [lt] is Python's [<], which the code never
    calls but in which the ordering [left < center < right] is stated. *)
Record pynum := PyNum {
  num :> Type;
  ge : num -> num -> bool;
  lt : num -> num -> bool;
  add : num -> num -> num;
  sub : num -> num -> num;
  mul : num -> num -> num;
  two : num
}.

(** Exact arithmetic in a totally ordered ring. *)
Definition exact (R : realDomainType) : pynum :=
  @PyNum R (fun x y => (y <= x)%R) (fun x y => (x < y)%R)
         (fun x y => (x + y)%R) (fun x y => (x - y)%R) (fun x y => (x * y)%R)
         2%:R%R.

(** Python's [float]. [x >= y] is [y <= x]; every comparison with a NaN is
    false. *)
Definition float64 : pynum :=
  @PyNum float (fun x y => PrimFloat.leb y x) PrimFloat.ltb
         PrimFloat.add PrimFloat.sub PrimFloat.mul 2%float.

(** [x] takes part in the order: [x >= x]. Every real does; among floats only
    NaN does not (this is how Python code tests for NaN, [x != x]). *)
Definition ordered (N : pynum) (x : N) : bool := ge x x.

(** The two facts about the order that validation relies on. *)
Record order_laws (N : pynum) : Prop := OrderLaws {
  lt_not_ge : forall x y : N, lt x y -> ge x y = false;
  ge_not_lt : forall x y : N, ordered x -> ordered y -> ge x y = ~~ lt x y
}.

(** ** Exceptions, store, console *)

Inductive exn :=
  | ValueError of string
  | AttributeError
  | EOFError
  | MemoryError
  | OtherError of string.

Inductive outcome (A : Type) :=
  | Return of A
  | Raise of exn.
Arguments Raise {A} _.

Definition ref := nat.

Section Program.

Variable N : pynum.

(** An instance is its attribute dictionary: each of the five attributes is
    absent ([None]) until [__init__] assigns it. *)
Record object := Object {
  left : option N;
  center : option N;
  right : option N;
  left_spread : option N;
  right_spread : option N
}.

Definition blank : object := Object None None None None None.

(** Attribute assignment [self.<name> = v], one setter per name. *)
Definition set_left (v : N) (o : object) : object :=
  Object (Some v) (center o) (right o) (left_spread o) (right_spread o).
Definition set_center (v : N) (o : object) : object :=
  Object (left o) (Some v) (right o) (left_spread o) (right_spread o).
Definition set_right (v : N) (o : object) : object :=
  Object (left o) (center o) (Some v) (left_spread o) (right_spread o).
Definition set_left_spread (v : N) (o : object) : object :=
  Object (left o) (center o) (right o) (Some v) (right_spread o).
Definition set_right_spread (v : N) (o : object) : object :=
  Object (left o) (center o) (right o) (left_spread o) (Some v).

(** What the script can show: a prompt written by [input], a line written by
    [print], the four panels and [plt.show()]. The numbers of a panel are the
    ones the script hands to numpy and matplotlib. *)
Inductive event :=
  | Prompt of string
  | Print of string
  | Membership of N & N & N
  | Function_curve of N & N
  | Derivative_curve of N & N
  | Derivative_on_support of N & N
  | Show.

(** The numpy calls of the script, each named by the numbers it is given:
    [np.linspace(lo, hi, num)], [np.arange(lo, hi, 0.5)], and, on the array
    [np.linspace(lo, hi, num)], [_ ** 2] and [2 * _]. What numpy computes is
    not modelled, only whether the call returns. *)
Inductive np_call :=
  | Linspace of N & N & nat
  | Arange of N & N
  | Square of N & N & nat
  | Double of N & N & nat.

Record world := World {
  heap : seq object;
  stdin : seq string;
  stdout : seq event
}.

Definition M (A : Type) : Type := world -> outcome A * world.

Definition ret {A} (x : A) : M A := fun w => (Return x, w).
Definition raise {A} (e : exn) : M A := fun w => (Raise e, w).
Definition bind {A B} (m : M A) (k : A -> M B) : M B := fun w =>
  match m w with
  | (Return x, w') => k x w'
  | (Raise e, w') => (Raise e, w')
  end.

End Program.

Arguments blank {N}.
Arguments Show {N}.
Arguments Prompt {N} _.
Arguments Print {N} _.
Arguments ret {N A} _ _.
Arguments raise {N A} _ _.

Notation "x <- m ;; k" := (bind m (fun x => k))
  (at level 61, m at next level, right associativity).
Notation "m ;; k" := (bind m (fun _ => k))
  (at level 61, right associativity).

Section Primitives.

Variable N : pynum.

(** Object creation: a new blank object at the next free reference. *)
Definition alloc : M N ref := fun w =>
  (Return (size (heap w)), World (rcons (heap w) blank) (stdin w) (stdout w)).

(** [self.<name>]: an attribute that was never assigned raises
    [AttributeError] (a reference that names no object reads as [blank]). *)
Definition getattr (self : ref) (name : object N -> option N) : M N N := fun w =>
  match name (nth blank (heap w) self) with
  | Some v => (Return v, w)
  | None => (Raise AttributeError, w)
  end.

(** [self.<name> = v]. References only come from [alloc], so the case of a
    reference outside the store does not occur; it leaves the store alone. *)
Definition setattr (self : ref) (set : N -> object N -> object N) (v : N)
  : M N unit := fun w =>
  let h := heap w in
  let h' := if self < size h then set_nth blank h self (set v (nth blank h self))
            else h in
  (Return tt, World h' (stdin w) (stdout w)).

Definition emit (e : event N) : M N unit := fun w =>
  (Return tt, World (heap w) (stdin w) (rcons (stdout w) e)).

(** [print(s)] with the line already assembled. *)
Definition print (s : string) : M N unit := emit (Print s).

(** [input(prompt)]: writes the prompt, then takes the next line of standard
    input; at end of input it raises [EOFError]. *)
Definition input (prompt : string) : M N string := fun w =>
  let out := rcons (stdout w) (Prompt prompt) in
  match stdin w with
  | line :: rest => (Return line, World (heap w) rest out)
  | [::] => (Raise EOFError, World (heap w) [::] out)
  end.

(** [try: body except ValueError as e: handler(e)]; other exceptions pass. *)
Definition try_except_ValueError {A} (body : M N A) (handler : string -> M N A)
  : M N A := fun w =>
  match body w with
  | (Raise (ValueError msg), w') => handler msg w'
  | r => r
  end.

End Primitives.

Arguments alloc {N} _.
Arguments setattr {N} self set v w : simpl never.

(** ** The class *)

Definition invalid_triplet : string :=
  "Invalid fuzzy number triplet. Must satisfy: left < center < right.".

Section FuzzyTriangle_class.

Variable N : pynum.

(** [FuzzyTriangle.__init__(self, left, center, right)] *)
Definition __init__ (self : ref) (left_ center_ right_ : N) : M N unit :=
  if ge left_ center_ || ge center_ right_ then
    raise (ValueError invalid_triplet)
  else
    setattr self (@set_left N) left_ ;;
    setattr self (@set_center N) center_ ;;
    setattr self (@set_right N) right_ ;;
    setattr self (@set_left_spread N) (sub center_ left_) ;;
    setattr self (@set_right_spread N) (sub right_ center_).

(** The call [FuzzyTriangle(left, center, right)]: create the object, run
    [__init__] on it, hand back the reference. When [__init__] raises, the
    blank object stays behind in the store, with no reference to it. *)
Definition FuzzyTriangle (left_ center_ right_ : N) : M N ref :=
  self <- alloc ;;
  __init__ self left_ center_ right_ ;;
  ret self.

(** [FuzzyTriangle.derivative(self)] *)
Definition derivative (self : ref) : M N ref :=
  c <- getattr self (@center N) ;;
  let new_center := mul (two N) c in
  ls <- getattr self (@left_spread N) ;;
  let new_left_spread := mul (two N) ls in
  rs <- getattr self (@right_spread N) ;;
  let new_right_spread := mul (two N) rs in
  FuzzyTriangle (sub new_center new_left_spread) new_center
                (add new_center new_right_spread).

(** [str] of a number, as the f-string of [__repr__] formats it. *)
Variable str : N -> string.

(** [FuzzyTriangle.__repr__(self)] *)
Definition __repr__ (self : ref) : M N string :=
  l <- getattr self (@left N) ;;
  c <- getattr self (@center N) ;;
  r <- getattr self (@right N) ;;
  ret ("FuzzyTriangle(left=" ++ str l ++ ", center=" ++ str c
         ++ ", right=" ++ str r ++ ")")%string.

(** [FuzzyTriangle.plot(self, color, label)]: the polygon through
    [(left, 0)], [(center, 1)], [(right, 0)]. *)
Definition plot (self : ref) : M N unit :=
  l <- getattr self (@left N) ;;
  c <- getattr self (@center N) ;;
  r <- getattr self (@right N) ;;
  emit (Membership l c r).

(** ** The script *)

(** [float(s)] on a line of input: the number read, or nothing when the text
    is not a number, in which case Python raises a [ValueError] whose message
    quotes the text. *)
Variable parse_float : string -> option N.
Variable parse_error : string -> string.

Definition float_of (s : string) : M N N :=
  match parse_float s with
  | Some x => ret x
  | None => raise (ValueError (parse_error s))
  end.

(** numpy, as far as the script can tell: for each call, the exception it
    raises, if any ([np.arange] raises [ValueError] or [MemoryError] when the
    range is too long or is not finite). *)
Variable numpy : np_call N -> option exn.

Definition numpy_call (c : np_call N) : M N unit :=
  match numpy c with
  | Some e => raise e
  | None => ret tt
  end.

(** The body of the [try]. The numpy calls stand where the source makes
    them; an event stands for the pyplot calls that draw (the polygon of
    [plot], a curve, the highlighted range, [show]). Titles, labels, ticks,
    grid and legend are not recorded, and pyplot calls are taken not to
    raise. *)
Definition script_body : M N unit :=
  sa <- input "Enter the left endpoint (a): " ;; a <- float_of sa ;;
  sb <- input "Enter the center value (b): " ;; b <- float_of sb ;;
  sc <- input "Enter the right endpoint (c): " ;; c <- float_of sc ;;
  fuzzy_point <- FuzzyTriangle a b c ;;
  r <- __repr__ fuzzy_point ;;
  print ("Created fuzzy triangular number: " ++ r)%string ;;
  fuzzy_derivative <- derivative fuzzy_point ;;
  r' <- __repr__ fuzzy_derivative ;;
  print ("Fuzzy derivative at the fuzzy point: " ++ r')%string ;;
  let lo := sub a (two N) in
  let hi := add c (two N) in
  numpy_call (Linspace lo hi 400) ;;
  plot fuzzy_point ;;
  numpy_call (Arange lo hi) ;;
  numpy_call (Square lo hi 400) ;;
  emit (Function_curve lo hi) ;;
  numpy_call (Arange lo hi) ;;
  numpy_call (Double lo hi 400) ;;
  emit (Derivative_curve lo hi) ;;
  numpy_call (Arange lo hi) ;;
  emit (Derivative_curve lo hi) ;;
  l <- getattr fuzzy_point (@left N) ;;
  r <- getattr fuzzy_point (@right N) ;;
  numpy_call (Linspace l r 200) ;;
  numpy_call (Double l r 200) ;;
  emit (Derivative_on_support l r) ;;
  numpy_call (Arange lo hi) ;;
  emit Show.

Definition script : M N unit :=
  try_except_ValueError script_body
    (fun e => print ("Error: " ++ e)%string).

End FuzzyTriangle_class.

(** ** Vocabulary of the statements *)

(** The object a successful [__init__] leaves behind. *)
Definition instance (N : pynum) (a b c : N) : object N :=
  Object (Some a) (Some b) (Some c) (Some (sub b a)) (Some (sub c b)).

(** [self.derivative().derivative()...], [n] calls. *)
Fixpoint derivative_n (N : pynum) (n : nat) (self : ref) : M N ref :=
  if n is n'.+1 then d <- derivative self ;; derivative_n n' d
  else ret self.

(** A fresh run: nothing in the store, nothing typed, nothing shown. *)
Definition start (N : pynum) : world N := World [::] [::] [::].

(** The floats that Python reads from the texts [0.1], [0.3], [1e308],
    [1.1e308] and [1.2e308], written in hexadecimal so that the literal is
    the float itself. *)
Definition f_0_1 : float := 0x1.999999999999ap-4%float.
Definition f_0_3 : float := 0x1.3333333333333p-2%float.
Definition f_1e308 : float := 0x1.1ccf385ebc8ap+1023%float.
Definition f_1_1e308 : float := 0x1.394a579b68fe3p+1023%float.
Definition f_1_2e308 : float := 0x1.55c576d815726p+1023%float.

(** Lines 62 and 66 of the script on their own: build the number, then take
    its derivative. *)
Definition construct_and_derive (N : pynum) (a b c : N) : M N ref :=
  fuzzy_point <- FuzzyTriangle a b c ;;
  derivative fuzzy_point.

(** A stand-in for [float] and for [str] on the few texts and numbers the
    examples type and print. *)
Definition read_digit (s : string) : option float64 :=
  if String.eqb s "1" then Some 1%float
  else if String.eqb s "2" then Some 2%float
  else if String.eqb s "3" then Some 3%float
  else None.
Definition not_a_number (s : string) : string :=
  if String.eqb s "two" then "could not convert string to float: 'two'"%string
  else "could not convert string to float"%string.
Definition show_digit (x : float64) : string :=
  if PrimFloat.eqb x 1 then "1.0"%string
  else if PrimFloat.eqb x 2 then "2.0"%string
  else if PrimFloat.eqb x 3 then "3.0"%string
  else if PrimFloat.eqb x 4 then "4.0"%string
  else if PrimFloat.eqb x 6 then "6.0"%string
  else "?"%string.

(** A store that holds the one number (1, 2, 3), over the integers. *)
Definition w123 : world (exact int) :=
  World [:: instance (N := exact int) 1%:Z%R 2%:Z%R 3%:Z%R] [::] [::].

(** What the class can have put in the store: a blank object (left by a
    construction that raised) or the object of a triplet that passed the
    guard of [__init__]. *)
Definition built (N : pynum) (o : object N) : Prop :=
  o = blank
  \/ exists a b c : N, o = instance a b c /\ ge a b || ge b c = false.

Definition class_built (N : pynum) (w : world N) : Prop :=
  forall i : ref, built (nth blank (heap w) i).

(** ** Vocabulary for the runs of the script *)

(** The triplet [derivative] passes to the constructor for a receiver built
    from [(a, b, c)], the guard of [__init__] on it, and the object built. *)
Definition next_left (N : pynum) (a b : N) : N :=
  sub (mul (two N) b) (mul (two N) (sub b a)).
Definition next_center (N : pynum) (b : N) : N := mul (two N) b.
Definition next_right (N : pynum) (b c : N) : N :=
  add (mul (two N) b) (mul (two N) (sub c b)).
Definition next_guard (N : pynum) (a b c : N) : bool :=
  ge (next_left a b) (next_center b)
  || ge (next_center b) (next_right b c).
Definition next_instance (N : pynum) (a b c : N) : object N :=
  instance (next_left a b) (next_center b) (next_right b c).

(** The text [__repr__] returns for an instance with bounds [a], [b], [c]. *)
Definition repr_text (N : pynum) (str : N -> string) (a b c : N) : string :=
  ("FuzzyTriangle(left=" ++ str a ++ ", center=" ++ str b
     ++ ", right=" ++ str c ++ ")")%string.

(** The three prompts, in the order the script writes them. *)
Definition prompts (N : pynum) : seq (event N) :=
  [:: Prompt "Enter the left endpoint (a): ";
      Prompt "Enter the center value (b): ";
      Prompt "Enter the right endpoint (c): "].



(** numpy when every call returns, and numpy when [np.arange] refuses a
    range that ends beyond [1e17]. *)
Definition numpy_returns (N : pynum) (c : np_call N) : option exn := None.
Definition numpy_refuses (c : np_call float64) : option exn :=
  if c is Arange lo hi then
    if PrimFloat.leb 0x1.6345785d8ap+56 hi
    then Some (ValueError "Maximum allowed size exceeded")
    else None
  else None.

(** Stand-ins for [float] and [str] on the texts and numbers of the run
    0, 1, 1e18, whose ticks numpy refuses to compute. *)
Definition f_1e18 : float := 0x1.bc16d674ec8p+59%float.
Definition f_2e18 : float := 0x1.bc16d674ec8p+60%float.
Definition read_wide (s : string) : option float64 :=
  if String.eqb s "0" then Some 0%float
  else if String.eqb s "1" then Some 1%float
  else if String.eqb s "1e18" then Some f_1e18
  else None.
Definition show_wide (x : float64) : string :=
  if PrimFloat.eqb x 0 then "0.0"%string
  else if PrimFloat.eqb x 1 then "1.0"%string
  else if PrimFloat.eqb x 2 then "2.0"%string
  else if PrimFloat.eqb x f_1e18 then "1e+18"%string
  else if PrimFloat.eqb x f_2e18 then "2e+18"%string
  else "?"%string.

(** The script from line 70 on: the drawing. *)
Definition draw_figure (N : pynum) (numpy : np_call N -> option exn)
    (fuzzy_point : ref) (a c : N) : M N unit :=
  let lo := sub a (two N) in
  let hi := add c (two N) in
  numpy_call numpy (Linspace lo hi 400) ;;
  plot fuzzy_point ;;
  numpy_call numpy (Arange lo hi) ;;
  numpy_call numpy (Square lo hi 400) ;;
  emit (Function_curve lo hi) ;;
  numpy_call numpy (Arange lo hi) ;;
  numpy_call numpy (Double lo hi 400) ;;
  emit (Derivative_curve lo hi) ;;
  numpy_call numpy (Arange lo hi) ;;
  emit (Derivative_curve lo hi) ;;
  l <- getattr fuzzy_point (@left N) ;;
  r <- getattr fuzzy_point (@right N) ;;
  numpy_call numpy (Linspace l r 200) ;;
  numpy_call numpy (Double l r 200) ;;
  emit (Derivative_on_support l r) ;;
  numpy_call numpy (Arange lo hi) ;;
  emit Show.

(** The script from line 62 on, once the three numbers are read. *)
Definition after_input (N : pynum) (str : N -> string)
    (numpy : np_call N -> option exn) (a b c : N) : M N unit :=
  fuzzy_point <- FuzzyTriangle a b c ;;
  r <- __repr__ str fuzzy_point ;;
  print ("Created fuzzy triangular number: " ++ r)%string ;;
  fuzzy_derivative <- derivative fuzzy_point ;;
  r' <- __repr__ str fuzzy_derivative ;;
  print ("Fuzzy derivative at the fuzzy point: " ++ r')%string ;;
  draw_figure numpy fuzzy_point a c.

(** A stand-in for [float] on the texts of the overflow example. *)
Definition read_big (s : string) : option float64 :=
  if String.eqb s "1e308" then Some f_1e308
  else if String.eqb s "1.1e308" then Some f_1_1e308
  else if String.eqb s "1.2e308" then Some f_1_2e308
  else None.

(** [str] on the floats of the overflow example, as Python prints them. *)
Definition show_big (x : float64) : string :=
  if PrimFloat.eqb x f_1e308 then "1e+308"%string
  else if PrimFloat.eqb x f_1_1e308 then "1.1e+308"%string
  else if PrimFloat.eqb x f_1_2e308 then "1.2e+308"%string
  else "?"%string.

(** ** Running the store primitives *)

Section Store_lemmas.

Variable N : pynum.
Implicit Types (h : seq (object N)) (o : object N) (w : world N).

Lemma nth_rcons_last h o : nth blank (rcons h o) (size h) = o.
Proof. by rewrite nth_rcons ltnn eqxx. Qed.

Lemma set_nth_rcons_last h o o' : set_nth blank (rcons h o) (size h) o' = rcons h o'.
Proof. by elim: h => [|x h IH] //=; rewrite IH. Qed.

(** Construction, when the guard lets the triplet through. *)
Lemma FuzzyTriangle_returns w (a b c : N) :
  ge a b || ge b c = false ->
  FuzzyTriangle a b c w
  = (Return (size (heap w)),
     World (rcons (heap w) (instance a b c)) (stdin w) (stdout w)).
Proof.
case: w => h si so guard.
rewrite /FuzzyTriangle /__init__ guard /bind /alloc /setattr /=.
by rewrite !(size_rcons, ltnSn, set_nth_rcons_last, nth_rcons_last).
Qed.

(** Construction, when the guard fires. *)
Lemma FuzzyTriangle_raises w (a b c : N) :
  ge a b || ge b c ->
  FuzzyTriangle a b c w
  = (Raise (ValueError invalid_triplet),
     World (rcons (heap w) blank) (stdin w) (stdout w)).
Proof. by case: w => h si so guard; rewrite /FuzzyTriangle /__init__ guard. Qed.

(** [derivative] on an object that has its three attributes is one call of
    the constructor. *)
Lemma derivative_call w self l r (c ls rs : N) :
  nth blank (heap w) self = Object l (Some c) r (Some ls) (Some rs) ->
  derivative self w
  = FuzzyTriangle (sub (mul (two N) c) (mul (two N) ls)) (mul (two N) c)
                  (add (mul (two N) c) (mul (two N) rs)) w.
Proof.
by move=> at_self; rewrite /derivative /bind /getattr; do 3! rewrite /= at_self.
Qed.

End Store_lemmas.

(** ** The order of the two number types *)

Lemma exact_order_laws (R : realDomainType) : order_laws (exact R).
Proof.
split=> [x y /= lt_xy|x y _ _ /=]; last exact: leNgt.
by rewrite leNgt lt_xy.
Qed.

(** Every element of an ordered ring takes part in the order. *)
Lemma exact_ordered (R : realDomainType) (x : R) : ordered (N := exact R) x.
Proof. exact: lexx. Qed.

Section Float_order.

Implicit Types (x y : spec_float) (a b : float).

Lemma Pos_compare_cont_swap (p q : positive) :
  Pos.compare_cont Eq q p = CompOpp (Pos.compare_cont Eq p q).
Proof. by rewrite Pos.compare_cont_antisym. Qed.

Lemma SFcompare_swap x y : SFcompare y x = omap CompOpp (SFcompare x y).
Proof.
case: x => [[]|[]||[] mx ex]; case: y => [[]|[]||[] my ey] //=;
  rewrite (Z.compare_antisym ex ey); case: (Z.compare ex ey) => //=;
  by rewrite (Pos_compare_cont_swap mx my).
Qed.

Lemma SFcompare_refl x : SFcompare x x = if x is S754_nan then None else Some Eq.
Proof.
by case: x => [[]|[]||[] m e] //=; rewrite Z.compare_refl Pos.compare_cont_refl.
Qed.

Lemma SFcompare_nan x y : SFcompare x y = None -> x = S754_nan \/ y = S754_nan.
Proof.
by case: x => [[]|[]||[] mx ex]; case: y => [[]|[]||[] my ey] //=; auto.
Qed.

Lemma float_lt_not_ge a b : PrimFloat.ltb a b -> PrimFloat.leb b a = false.
Proof.
rewrite ltb_spec leb_spec /SFltb /SFleb (SFcompare_swap (Prim2SF a) (Prim2SF b)).
by case: SFcompare => [[]|].
Qed.

Lemma float_ge_not_lt a b :
  PrimFloat.leb a a -> PrimFloat.leb b b ->
  PrimFloat.leb b a = ~~ PrimFloat.ltb a b.
Proof.
rewrite ltb_spec !leb_spec /SFltb /SFleb.
rewrite (SFcompare_swap (Prim2SF a) (Prim2SF b)) !SFcompare_refl.
case E: (SFcompare (Prim2SF a) (Prim2SF b)) => [[]|] //=.
by case: (SFcompare_nan E) => ->.
Qed.

(** A NaN fails every [>=], on either side. *)
Lemma float_nan_ge a b :
  PrimFloat.is_nan a -> PrimFloat.leb a b = false /\ PrimFloat.leb b a = false.
Proof.
rewrite /PrimFloat.is_nan eqb_spec !leb_spec /SFeqb /SFleb SFcompare_refl.
case: (Prim2SF a) => //= _.
by split=> //; case: (Prim2SF b) => [[]|[]||[] m e].
Qed.

(** A float takes part in the order exactly when it is not a NaN. *)
Lemma float_ordered a : ordered (N := float64) a = ~~ PrimFloat.is_nan a.
Proof.
rewrite /ordered /PrimFloat.is_nan /= negbK leb_spec eqb_spec /SFleb /SFeqb.
by rewrite SFcompare_refl; case: (Prim2SF a).
Qed.

End Float_order.

Lemma float64_order_laws : order_laws float64.
Proof.
split=> [x y|x y]; first exact: float_lt_not_ge.
exact: float_ge_not_lt.
Qed.

(** ** Construction *)

Section Construction.

Variable N : pynum.
Implicit Types (w : world N) (a b c : N).

(** The guard of [__init__] in terms of [<], for numbers that take part in
    the order. *)
Lemma guard_ordered a b c :
  order_laws N -> ordered a -> ordered b -> ordered c ->
  ge a b || ge b c = ~~ (lt a b && lt b c).
Proof.
move=> laws oa ob oc.
by rewrite (ge_not_lt laws oa ob) (ge_not_lt laws ob oc) negb_and.
Qed.

(** The constructor call only ever adds one object to the store, and leaves
    the console alone. *)
Lemma FuzzyTriangle_world w a b c :
  exists o, (FuzzyTriangle a b c w).2
            = World (rcons (heap w) o) (stdin w) (stdout w).
Proof.
case guard: (ge a b || ge b c).
  by rewrite FuzzyTriangle_raises //; exists blank.
by rewrite FuzzyTriangle_returns //; exists (instance a b c).
Qed.

(** C3. For all [a < b < c] the call [FuzzyTriangle(a, b, c)] succeeds; the
    new instance stores [left = a], [center = b], [right = c],
    [left_spread = b - a] and [right_spread = c - b], and nothing else
    changes: the objects already in the store, the pending input and the
    output are as before. *)
Theorem construction_stores_triplet w a b c :
  order_laws N -> lt a b -> lt b c ->
  FuzzyTriangle a b c w
  = (Return (size (heap w)),
     World (rcons (heap w)
                  (Object (Some a) (Some b) (Some c)
                          (Some (sub b a)) (Some (sub c b))))
           (stdin w) (stdout w)).
Proof.
move=> laws lt_ab lt_bc; apply: FuzzyTriangle_returns.
by rewrite (lt_not_ge laws lt_ab) (lt_not_ge laws lt_bc).
Qed.

(** C2. Construction from three reals raises exactly when the strict
    ordering [left < center < right] fails, and what it raises is the
    [ValueError] with the message "Invalid fuzzy number triplet. Must
    satisfy: left < center < right.". *)
Theorem construction_raises_iff w a b c :
  order_laws N -> ordered a -> ordered b -> ordered c ->
  ((exists e, (FuzzyTriangle a b c w).1 = Raise e) <-> ~ (lt a b /\ lt b c))
  /\ (forall e, (FuzzyTriangle a b c w).1 = Raise e ->
        e = ValueError
              "Invalid fuzzy number triplet. Must satisfy: left < center < right.").
Proof.
move=> laws oa ob oc; have := guard_ordered laws oa ob oc.
case lt_abc: (lt a b && lt b c) => /= guard.
  rewrite FuzzyTriangle_returns //=; split=> [|e //].
  by split=> [[e //]|[]]; apply/andP.
rewrite FuzzyTriangle_raises ?guard //=; split; last by move=> e [<-].
split=> [_ /andP|_]; first by rewrite lt_abc.
by exists (ValueError invalid_triplet).
Qed.

End Construction.

(** ** The derivative *)

Section Derivative_frame.

Variable N : pynum.
Implicit Types (w : world N) (self : ref).

(** [derivative] reads three attributes of its receiver and then calls the
    constructor: the only change it can make to the world is one more object
    at the end of the store. *)
Lemma derivative_world w self :
  (derivative self w).2 = w
  \/ exists o, (derivative self w).2
               = World (rcons (heap w) o) (stdin w) (stdout w).
Proof.
rewrite /derivative /bind /getattr /=.
case: (center _) => [c|]; last by left.
case: (left_spread _) => [ls|]; last by left.
case: (right_spread _) => [rs|]; last by left.
by right; apply: FuzzyTriangle_world.
Qed.


(** In any arithmetic, what [derivative] returns is the instance of the
    triplet [(2c - 2ls, 2c, 2c + 2rs)] computed from the receiver's center
    [c] and spreads [ls], [rs] with the operations of the number type. *)
Lemma derivative_result w self d :
  (derivative self w).1 = Return d ->
  exists c ls rs,
    [/\ center (nth blank (heap w) self) = Some c,
        left_spread (nth blank (heap w) self) = Some ls,
        right_spread (nth blank (heap w) self) = Some rs
      & nth blank (heap (derivative self w).2) d
        = instance (sub (mul (two N) c) (mul (two N) ls)) (mul (two N) c)
                   (add (mul (two N) c) (mul (two N) rs))].
Proof.
rewrite /derivative /bind /getattr /=.
case: (center _) => [c|] //; case: (left_spread _) => [ls|] //.
case: (right_spread _) => [rs|] //.
set nl := sub _ _; set nc := mul _ c; set nr := add _ _.
case guard: (ge nl nc || ge nc nr).
  by rewrite FuzzyTriangle_raises.
rewrite FuzzyTriangle_returns //= => -[<-].
by exists c, ls, rs; split=> //; rewrite nth_rcons_last.
Qed.


End Derivative_frame.

(** ** The derivative in exact arithmetic *)

Section Derivative_exact.

Variable R : realDomainType.
Implicit Types (w : world (exact R)) (self : ref) (a b c : R).

Local Open Scope ring_scope.

Lemma two_gt0 : 0 < 2%:R :> R.
Proof. by rewrite ltr0n. Qed.

(** The triplet [derivative] hands to the constructor is the doubled one. *)
Lemma derived_left a b : 2%:R * b - 2%:R * (b - a) = 2%:R * a.
Proof. by rewrite mulrBr subKr. Qed.

Lemma derived_right b c : 2%:R * b + 2%:R * (c - b) = 2%:R * c.
Proof. by rewrite mulrBr addrC subrK. Qed.

Lemma instance_doubled a b c :
  instance (N := exact R) (2%:R * a) (2%:R * b) (2%:R * c)
  = @Object (exact R) (Some (2%:R * a)) (Some (2%:R * b)) (Some (2%:R * c))
           (Some (2%:R * (b - a))) (Some (2%:R * (c - b))).
Proof. by rewrite /instance /= !mulrBr. Qed.

(** One run of [derivative] on a valid number. *)
Lemma derivative_exact_run w self a b c :
  nth blank (heap w) self = instance (N := exact R) a b c ->
  a < b -> b < c ->
  derivative self w
  = (Return (size (heap w)),
     World (rcons (heap w)
              (instance (N := exact R) (2%:R * a) (2%:R * b) (2%:R * c)))
           (stdin w) (stdout w)).
Proof.
move=> at_self lt_ab lt_bc; rewrite (derivative_call at_self) /=.
rewrite derived_left derived_right FuzzyTriangle_returns //=.
by rewrite !(ler_pM2l two_gt0) !leNgt lt_ab lt_bc.
Qed.

(** [n] runs in a row. *)
Lemma derivative_n_exact_run n w self a b c :
  nth blank (heap w) self = instance (N := exact R) a b c ->
  a < b -> b < c ->
  exists d w',
    derivative_n n self w = (Return d, w')
    /\ nth blank (heap w') d
       = instance (N := exact R)
           (2%:R ^+ n * a) (2%:R ^+ n * b) (2%:R ^+ n * c).
Proof.
elim: n w self a b c => [|n IH] w self a b c at_self lt_ab lt_bc.
  by exists self, w; rewrite expr0 !mul1r.
rewrite /= /bind (derivative_exact_run at_self) //.
set w1 := World _ _ _.
have at_new : nth blank (heap w1) (size (heap w))
              = instance (N := exact R) (2%:R * a) (2%:R * b) (2%:R * c).
  exact: nth_rcons_last.
have lt_ab2 : 2%:R * a < 2%:R * b by rewrite (ltr_pM2l two_gt0).
have lt_bc2 : 2%:R * b < 2%:R * c by rewrite (ltr_pM2l two_gt0).
have [d [w' [run at_d]]] := IH _ _ _ _ _ at_new lt_ab2 lt_bc2.
by exists d, w'; split=> //; rewrite !exprSr -!mulrA.
Qed.

(** C1, amended. In exact arithmetic, for every valid number with left [a],
    center [b], right [c] ([a < b < c]), [derivative] returns a new number
    with center [2 * b], left_spread [2 * (b - a)], right_spread
    [2 * (c - b)], whose triplet is [(2 * a, 2 * b, 2 * c)]. *)
Theorem derivative_doubles_exact w self a b c :
  nth blank (heap w) self = instance (N := exact R) a b c ->
  a < b -> b < c ->
  derivative self w
  = (Return (size (heap w)),
     World (rcons (heap w)
              (@Object (exact R) (Some (2%:R * a)) (Some (2%:R * b))
                       (Some (2%:R * c))
                       (Some (2%:R * (b - a))) (Some (2%:R * (c - b)))))
           (stdin w) (stdout w)).
Proof. by move=> *; rewrite -instance_doubled; apply: derivative_exact_run. Qed.


(** C9, amended. In exact arithmetic, [n] successive calls of [derivative]
    starting from a valid number [(a, b, c)] all return, and the last number
    has the triplet [(2^n * a, 2^n * b, 2^n * c)]; two calls give
    [(4 * a, 4 * b, 4 * c)]. *)
Theorem derivative_n_scales_exact w self a b c :
  nth blank (heap w) self = instance (N := exact R) a b c ->
  a < b -> b < c ->
  (forall n, exists d w',
     derivative_n n self w = (Return d, w')
     /\ nth blank (heap w') d
        = instance (N := exact R)
            (2%:R ^+ n * a) (2%:R ^+ n * b) (2%:R ^+ n * c))
  /\ (exists d w',
        derivative_n 2 self w = (Return d, w')
        /\ nth blank (heap w') d
           = instance (N := exact R) (4%:R * a) (4%:R * b) (4%:R * c)).
Proof.
move=> at_self lt_ab lt_bc.
split=> [n|]; first exact: derivative_n_exact_run.
have [d [w' [run at_d]]] := derivative_n_exact_run 2 at_self lt_ab lt_bc.
by exists d, w'; split=> //; rewrite at_d expr2 -natrM.
Qed.

End Derivative_exact.

(** ** What the store holds *)

Section Store_invariant.

Variable N : pynum.
Implicit Types (w : world N) (a b c : N).

Lemma class_built_rcons w o si so :
  class_built w -> built o -> class_built (World (rcons (heap w) o) si so).
Proof.
move=> inv built_o i; rewrite /= nth_rcons.
by case: ltngtP => // _; left.
Qed.

Lemma FuzzyTriangle_class_built w a b c :
  class_built w -> class_built (FuzzyTriangle a b c w).2.
Proof.
move=> inv; case guard: (ge a b || ge b c).
  by rewrite FuzzyTriangle_raises //; apply: class_built_rcons => //; left.
rewrite FuzzyTriangle_returns //; apply: class_built_rcons => //.
by right; exists a, b, c.
Qed.

Lemma derivative_class_built w self :
  class_built w -> class_built (derivative self w).2.
Proof.
move=> inv; rewrite /derivative /bind /getattr /=.
case: (center _) => [c|] //; case: (left_spread _) => [ls|] //.
case: (right_spread _) => [rs|] //.
exact: FuzzyTriangle_class_built.
Qed.

(** The bounds of an instance built from numbers that take part in the order
    are strictly ordered. *)
Lemma built_ordered a b c :
  order_laws N -> ordered a -> ordered b -> ordered c ->
  ge a b || ge b c = false -> lt a b && lt b c.
Proof.
by move=> laws oa ob oc; rewrite (guard_ordered laws oa ob oc) => /negbFE.
Qed.

End Store_invariant.

(** ** The script *)

Section Script.

Variable N : pynum.
Variable str : N -> string.
Variable parse_float : string -> option N.
Variable parse_error : string -> string.
Variable numpy : np_call N -> option exn.

(** C7. When the three lines typed are numbers and the constructor rejects
    them, the script ends normally having written, after the three prompts,
    the one line "Error: Invalid fuzzy number triplet. Must satisfy: left <
    center < right." and nothing else: no line about a fuzzy number or a
    derivative, no panel, no [show]; the store holds no instance (only the
    blank object the failed construction left). *)
Theorem script_reports_invalid_triplet (w : world N) sa sb sc rest a b c :
  stdin w = [:: sa, sb, sc & rest] ->
  parse_float sa = Some a -> parse_float sb = Some b ->
  parse_float sc = Some c ->
  ge a b || ge b c ->
  script str parse_float parse_error numpy w
  = (Return tt,
     World (rcons (heap w) blank) rest
           (stdout w ++
            [:: Prompt "Enter the left endpoint (a): ";
                Prompt "Enter the center value (b): ";
                Prompt "Enter the right endpoint (c): ";
                Print "Error: Invalid fuzzy number triplet. Must satisfy: left < center < right."])).
Proof.
case: w => h si so /= -> pa pb pc guard.
rewrite /script /try_except_ValueError /script_body /bind /input /float_of /=.
rewrite pa /= pb /= pc /= FuzzyTriangle_raises //=.
by rewrite /print /emit /= -!cats1 -!catA.
Qed.

End Script.

(** ** Binary64 *)

Section Float_runs.

Local Open Scope float_scope.

Implicit Types (w : world float64) (a b c : float).

Lemma float_nan_lt a b :
  PrimFloat.is_nan a -> PrimFloat.ltb a b = false /\ PrimFloat.ltb b a = false.
Proof.
rewrite /PrimFloat.is_nan eqb_spec !ltb_spec /SFeqb /SFltb SFcompare_refl.
case: (Prim2SF a) => //= _.
by split=> //; case: (Prim2SF b) => [[]|[]||[] m e].
Qed.

(** C8. With the input 1, 2, 3 the script builds the number with left 1,
    center 2, right 3, and its derivative has left 2, center 4, right 6; the
    same holds when the class is called on the integers 1, 2, 3. *)
Theorem scenario_1_2_3 :
  construct_and_derive (N := float64) 1 2 3 (start float64)
  = (Return 1%N,
     World [:: @Object float64 (Some 1) (Some 2) (Some 3) (Some 1) (Some 1);
               @Object float64 (Some 2) (Some 4) (Some 6) (Some 2) (Some 2)]
           [::] [::])
  /\ construct_and_derive (N := exact int) 1%R 2%:R%R 3%:R%R (start (exact int))
     = (Return 1%N,
        World [:: @Object (exact int) (Some 1%R) (Some 2%:R%R) (Some 3%:R%R)
                          (Some 1%R) (Some 1%R);
                  @Object (exact int) (Some 2%:R%R) (Some 4%:R%R) (Some 6%:R%R)
                          (Some 2%:R%R) (Some 2%:R%R)]
              [::] [::]).
Proof. by split; vm_compute. Qed.

(** C10 as stated fails: one NaN argument is not enough. With left = NaN,
    center = 3.0, right = 2.0 the second comparison, [3.0 >= 2.0], is true
    and the constructor raises. *)
Lemma nan_argument_can_raise :
  [/\ PrimFloat.is_nan nan,
      ge (p := float64) 3 2
    & FuzzyTriangle (N := float64) nan 3 2 (start float64)
      = (Raise (ValueError invalid_triplet), World [:: blank] [::] [::])].
Proof. by split; vm_compute. Qed.

(** C10, amended. A comparison with a NaN operand is false. So when at least
    one argument is NaN, and each of the two guard comparisons either has a
    NaN operand or has its operands in strict order, both comparisons are
    false, no error is raised, and an instance that does not satisfy
    [left < center < right] is created. *)
Theorem nan_passes_validation w a b c :
  PrimFloat.is_nan a || PrimFloat.is_nan b || PrimFloat.is_nan c ->
  PrimFloat.is_nan a || PrimFloat.is_nan b || lt (p := float64) a b ->
  PrimFloat.is_nan b || PrimFloat.is_nan c || lt (p := float64) b c ->
  [/\ ge (p := float64) a b = false,
      ge (p := float64) b c = false,
      FuzzyTriangle (N := float64) a b c w
      = (Return (size (heap w)),
         World (rcons (heap w) (instance (N := float64) a b c))
               (stdin w) (stdout w))
    & lt (p := float64) a b && lt (p := float64) b c = false].
Proof.
move=> some_nan ok_ab ok_bc.
have ge_ab : ge (p := float64) a b = false.
  case/orP: ok_ab => [/orP [] nan_x|]; last exact: float_lt_not_ge.
    by case: (float_nan_ge b nan_x).
  by case: (float_nan_ge a nan_x).
have ge_bc : ge (p := float64) b c = false.
  case/orP: ok_bc => [/orP [] nan_x|]; last exact: float_lt_not_ge.
    by case: (float_nan_ge c nan_x).
  by case: (float_nan_ge b nan_x).
split=> //; first by apply: FuzzyTriangle_returns; rewrite ge_ab ge_bc.
case/orP: some_nan => [/orP [] nan_x|nan_x] /=.
- by case: (float_nan_lt b nan_x) => ->.
- by case: (float_nan_lt a nan_x) => _ ->.
- by case: (float_nan_lt b nan_x) => _ ->; rewrite andbF.
Qed.

(** C5 at a NaN: the script's input 1, 2, nan is accepted, and the instance
    built has center = 2.0 and right = NaN, for which [center < right] is
    false. *)
Theorem nan_instance_breaks_invariant :
  FuzzyTriangle (N := float64) 1 2 nan (start float64)
  = (Return 0%N,
     World [:: @Object float64 (Some 1) (Some 2) (Some nan) (Some 1) (Some nan)]
           [::] [::])
  /\ lt (p := float64) 2 nan = false.
Proof. by split; vm_compute. Qed.

(** C1 as stated fails for floats. The valid number (0.1, 1.0, 2.0) has
    left_spread [1.0 - 0.1], which rounds to 0.9; the derivative's left is
    [2.0 - 1.8 = 0.19999999999999996], not [2 * 0.1 = 0.2]. *)
Lemma derivative_float_not_doubled :
  let w := World [:: instance (N := float64) f_0_1 1 2] [::] [::] in
  [/\ FuzzyTriangle (N := float64) f_0_1 1 2 (start float64) = (Return 0%N, w),
      lt (p := float64) f_0_1 1 && lt (p := float64) 1 2,
      derivative 0%N w
      = (Return 1%N,
         World [:: instance (N := float64) f_0_1 1 2;
                   @Object float64 (Some 0x1.9999999999998p-3) (Some 2) (Some 4)
                           (Some 0x1.ccccccccccccdp+0) (Some 2)]
               [::] [::])
    & 0x1.9999999999998p-3 <> mul (two float64) f_0_1].
Proof.
split; try by vm_compute.
Qed.


(** C9 as stated fails for floats. Two derivatives of the valid number
    (0.3, 1.0, 2.0) give left = 1.2000000000000002, while [4 * 0.3 = 1.2]. *)
Lemma derivative_twice_float_not_quadrupled :
  let w := World [:: instance (N := float64) f_0_3 1 2] [::] [::] in
  [/\ lt (p := float64) f_0_3 1 && lt (p := float64) 1 2,
      (exists w', derivative_n 2%N 0%N w = (Return 2%N, w')
                  /\ left (nth blank (heap w') 2%N) = Some 0x1.3333333333334p+0)
    & 0x1.3333333333334p+0 <> mul (p := float64) 4 f_0_3].
Proof.
split; first by vm_compute.
  by eexists; split; vm_compute.
by vm_compute.
Qed.

End Float_runs.

(** The whole script on the input 1, 2, 3 (with [float] and [str] limited to
    the texts and numbers of this run, and numpy returning): two lines, four
    panels, [show]. *)
Example script_on_1_2_3 :
  script show_digit read_digit not_a_number (@numpy_returns float64)
         (World [::] [:: "1"; "2"; "3"]%string [::])
  = (Return tt,
     World [:: @Object float64 (Some 1%float) (Some 2%float) (Some 3%float)
                       (Some 1%float) (Some 1%float);
               @Object float64 (Some 2%float) (Some 4%float) (Some 6%float)
                       (Some 2%float) (Some 2%float)]
           [::]
           [:: Prompt "Enter the left endpoint (a): ";
               Prompt "Enter the center value (b): ";
               Prompt "Enter the right endpoint (c): ";
               Print "Created fuzzy triangular number: FuzzyTriangle(left=1.0, center=2.0, right=3.0)";
               Print "Fuzzy derivative at the fuzzy point: FuzzyTriangle(left=2.0, center=4.0, right=6.0)";
               Membership (N := float64) 1%float 2%float 3%float;
               Function_curve (N := float64) (-1)%float 5%float;
               Derivative_curve (N := float64) (-1)%float 5%float;
               Derivative_curve (N := float64) (-1)%float 5%float;
               Derivative_on_support (N := float64) 1%float 3%float;
               Show]).
Proof. by vm_compute. Qed.

(** ** The theorems at concrete inputs *)

Section Witnesses.

Local Open Scope ring_scope.

Lemma construction_stores_triplet_witness :
  [/\ lt (p := float64) f_0_1 1%float, lt (p := float64) 1%float 2%float
    & FuzzyTriangle (N := float64) f_0_1 1%float 2%float (start float64)
      = (Return 0%N,
         World [:: @Object float64 (Some f_0_1) (Some 1%float) (Some 2%float)
                           (Some 0x1.ccccccccccccdp-1%float) (Some 1%float)]
               [::] [::])].
Proof.
split; [by [] | by [] |].
exact: (@construction_stores_triplet float64 (start float64) f_0_1 1%float
          2%float float64_order_laws erefl erefl).
Defined.

Lemma construction_raises_iff_witness :
  let r := (FuzzyTriangle (N := exact int) 2%:Z 2%:Z 3%:Z (start (exact int))).1 in
  ((exists e, r = Raise e)
   <-> ~ (lt (p := exact int) 2%:Z 2%:Z /\ lt (p := exact int) 2%:Z 3%:Z))
  /\ (forall e, r = Raise e ->
        e = ValueError
              "Invalid fuzzy number triplet. Must satisfy: left < center < right.").
Proof.
exact: (@construction_raises_iff (exact int) (start (exact int)) 2%:Z 2%:Z 3%:Z
          (exact_order_laws _) erefl erefl erefl).
Defined.

Lemma derivative_doubles_exact_witness :
  derivative 0 w123
  = (Return 1%N,
     World [:: instance (N := exact int) 1%:Z 2%:Z 3%:Z;
               @Object (exact int) (Some 2%:Z) (Some 4%:Z) (Some 6%:Z)
                       (Some 2%:Z) (Some 2%:Z)]
           [::] [::]).
Proof.
exact: (@derivative_doubles_exact int w123 0 1%:Z 2%:Z 3%:Z erefl isT isT).
Defined.


Lemma derivative_n_scales_exact_witness :
  exists d w',
    derivative_n 2 0 w123 = (Return d, w')
    /\ nth blank (heap w') d = instance (N := exact int) 4%:Z 8%:Z 12%:Z.
Proof.
exact: (proj2 (@derivative_n_scales_exact int w123 0 1%:Z 2%:Z 3%:Z
                 erefl isT isT)).
Defined.


Lemma script_reports_invalid_triplet_witness :
  script show_digit read_digit not_a_number (@numpy_returns float64)
         (World [::] [:: "2"; "2"; "3"]%string [::])
  = (Return tt,
     World [:: blank] [::]
       [:: Prompt "Enter the left endpoint (a): ";
           Prompt "Enter the center value (b): ";
           Prompt "Enter the right endpoint (c): ";
           Print "Error: Invalid fuzzy number triplet. Must satisfy: left < center < right."]).
Proof.
exact: (@script_reports_invalid_triplet float64 show_digit read_digit
          not_a_number (@numpy_returns float64)
          (World [::] [:: "2"; "2"; "3"]%string [::])
          "2" "2" "3" [::] 2%float 2%float 3%float erefl erefl erefl erefl erefl).
Defined.

Lemma nan_passes_validation_witness :
  FuzzyTriangle (N := float64) nan 1%float 2%float (start float64)
  = (Return 0%N,
     World [:: @Object float64 (Some nan) (Some 1%float) (Some 2%float)
                       (Some nan) (Some 1%float)] [::] [::])
  /\ lt (p := float64) nan 1%float && lt (p := float64) 1%float 2%float = false.
Proof.
by case: (@nan_passes_validation (start float64) nan 1%float 2%float
            erefl erefl erefl).
Defined.

End Witnesses.

(** ** Reading and drawing *)

Section Readers.

Variable N : pynum.
Variable str : N -> string.
Implicit Types (w : world N) (self : ref) (a b c : N).

(** [__repr__] of an instance shows its three bounds and changes nothing. *)
Lemma repr_instance w self a b c :
  nth blank (heap w) self = instance a b c ->
  __repr__ str self w = (Return (repr_text str a b c), w).
Proof. by move=> at_self; rewrite /__repr__ /bind /getattr; do 3! rewrite /= at_self. Qed.

(** [plot] of an instance draws its triangle and changes nothing else. *)
Lemma plot_instance w self a b c :
  nth blank (heap w) self = instance a b c ->
  plot self w
  = (Return tt, World (heap w) (stdin w) (rcons (stdout w) (Membership a b c))).
Proof. by move=> at_self; rewrite /plot /bind /getattr; do 3! rewrite /= at_self. Qed.

(** X8. [__repr__] only reads: whatever [self] names, whether it returns or
    raises, the world after the call is the world before. *)
Theorem repr_reads_only w self : (__repr__ str self w).2 = w.
Proof.
rewrite /__repr__ /bind /getattr /=.
case: (left _) => [l|] //=; case: (center _) => [c|] //=.
by case: (right _) => [r|].
Qed.

(** X9. [plot] never touches the store or the input, and writes at most the
    one polygon: either it raises and the output is as before, or it returns
    and the output has one more event, the triangle through the receiver's
    left, center and right. *)
Theorem plot_draws_one_triangle w self :
  [/\ heap (plot self w).2 = heap w, stdin (plot self w).2 = stdin w
    & (plot self w).1 = Raise AttributeError /\ stdout (plot self w).2 = stdout w
      \/ exists l c r,
           [/\ (plot self w).1 = Return tt,
               left (nth blank (heap w) self) = Some l,
               center (nth blank (heap w) self) = Some c,
               right (nth blank (heap w) self) = Some r
             & stdout (plot self w).2 = rcons (stdout w) (Membership l c r)]].
Proof.
rewrite /plot /bind /getattr /=.
case: (left _) => [l|] /=; last by split=> //; left.
case: (center _) => [c|] /=; last by split=> //; left.
case: (right _) => [r|] /=; last by split=> //; left.
by split=> //; right; exists l, c, r.
Qed.

(** X7. The text of a freshly built number shows the constructor's
    arguments: [repr(FuzzyTriangle(a, b, c))] for a triplet that passes the
    guard is "FuzzyTriangle(left=a, center=b, right=c)" with each number
    formatted by [str]. *)
Theorem repr_of_constructed w a b c :
  ge a b || ge b c = false ->
  (self <- FuzzyTriangle a b c ;; __repr__ str self) w
  = (Return ("FuzzyTriangle(left=" ++ str a ++ ", center=" ++ str b
               ++ ", right=" ++ str c ++ ")")%string,
     World (rcons (heap w) (instance a b c)) (stdin w) (stdout w)).
Proof.
move=> guard; rewrite /bind FuzzyTriangle_returns //.
by rewrite (@repr_instance _ _ a b c) //= nth_rcons_last.
Qed.

End Readers.

(** ** Every run of the script *)

Section Script_runs.

Variable N : pynum.
Variable str : N -> string.
Variable parse_float : string -> option N.
Variable parse_error : string -> string.
Variable numpy : np_call N -> option exn.
Implicit Types (w : world N) (a b c : N).

#[local] Arguments FuzzyTriangle : simpl never.
#[local] Arguments derivative : simpl never.
#[local] Arguments __repr__ : simpl never.
#[local] Arguments plot : simpl never.
#[local] Arguments after_input : simpl never.
#[local] Arguments draw_figure : simpl never.

Local Notation script := (script str parse_float parse_error numpy).
Local Notation parses := (fun s => isSome (parse_float s)).

Lemma script_body_after_input :
  script_body str parse_float parse_error numpy
  = (sa <- input "Enter the left endpoint (a): " ;;
     a <- float_of parse_float parse_error sa ;;
     sb <- input "Enter the center value (b): " ;;
     b <- float_of parse_float parse_error sb ;;
     sc <- input "Enter the right endpoint (c): " ;;
     c <- float_of parse_float parse_error sc ;;
     after_input str numpy a b c).
Proof. by []. Qed.

Lemma nth_rcons_prev (h : seq (object N)) o o' :
  nth blank (rcons (rcons h o) o') (size h) = o.
Proof. by rewrite nth_rcons size_rcons ltnSn nth_rcons_last. Qed.

(** The drawing never touches the store or the input. *)
Lemma draw_figure_frame w fp a c :
  heap (draw_figure numpy fp a c w).2 = heap w
  /\ stdin (draw_figure numpy fp a c w).2 = stdin w.
Proof.
rewrite /draw_figure /bind /numpy_call /plot /getattr /bind /=.
by do ![case: (numpy _) => [?|] //= | case: (left _) => [?|] //=
       | case: (center _) => [?|] //= | case: (right _) => [?|] //=].
Qed.

(** The drawing of a built number either completes or stops at the first
    numpy call that raises, with the exception of that call. *)
Lemma draw_figure_outcome w fp a b c :
  nth blank (heap w) fp = instance a b c ->
  (draw_figure numpy fp a c w).1 = Return tt
  \/ exists k e, numpy k = Some e /\ (draw_figure numpy fp a c w).1 = Raise e.
Proof.
move=> at_fp; rewrite /draw_figure /bind /numpy_call.
case E1: (numpy _) => [e|] /=; first by right; eexists; eexists; split; [exact: E1|].
rewrite (plot_instance at_fp) /=.
case E2: (numpy _) => [e|] /=; first by right; eexists; eexists; split; [exact: E2|].
case E3: (numpy _) => [e|] /=; first by right; eexists; eexists; split; [exact: E3|].
case E4: (numpy _) => [e|] /=; first by right; eexists; eexists; split; [exact: E4|].
rewrite /getattr; do 2! rewrite /= at_fp.
rewrite /=.
case E5: (numpy _) => [e|] /=; first by right; eexists; eexists; split; [exact: E5|].
case E6: (numpy _) => [e|] /=; first by right; eexists; eexists; split; [exact: E6|].
by left.
Qed.


(** The drawing when the ticks of the first panel cannot be computed: the
    first [np.arange] raises after the triangle is drawn. *)
Lemma draw_figure_no_ticks w fp a b c e :
  nth blank (heap w) fp = instance a b c ->
  numpy (Linspace (sub a (two N)) (add c (two N)) 400) = None ->
  numpy (Arange (sub a (two N)) (add c (two N))) = Some e ->
  draw_figure numpy fp a c w
  = (Raise e,
     World (heap w) (stdin w) (rcons (stdout w) (Membership a b c))).
Proof.
move=> at_fp ok bad; rewrite /draw_figure /bind /numpy_call ok /=.
by rewrite (plot_instance at_fp) /= bad.
Qed.

Lemma after_input_invalid w a b c :
  ge a b || ge b c ->
  after_input str numpy a b c w
  = (Raise (ValueError invalid_triplet),
     World (rcons (heap w) blank) (stdin w) (stdout w)).
Proof. by move=> guard; rewrite /after_input /bind FuzzyTriangle_raises. Qed.

Lemma after_input_derivative_invalid w a b c :
  ge a b || ge b c = false -> next_guard a b c ->
  after_input str numpy a b c w
  = (Raise (ValueError invalid_triplet),
     World (rcons (rcons (heap w) (instance a b c)) blank) (stdin w)
           (rcons (stdout w)
              (Print ("Created fuzzy triangular number: "
                        ++ repr_text str a b c)%string))).
Proof.
case: w => h si so guard nguard.
rewrite /after_input /bind FuzzyTriangle_returns //=.
rewrite (@repr_instance _ _ _ _ a b c) /= ?nth_rcons_last //.
rewrite (@derivative_call _ _ _ (Some a) (Some c) b (sub b a) (sub c b)) /=;
  first by rewrite nth_rcons_last.
by rewrite FuzzyTriangle_raises.
Qed.

(** When both triplets pass the guard, what is left is the drawing, in the
    world that holds the two numbers and shows their two lines. *)
Lemma after_input_draws w a b c :
  ge a b || ge b c = false -> next_guard a b c = false ->
  after_input str numpy a b c w
  = draw_figure numpy (size (heap w)) a c
      (World (rcons (rcons (heap w) (instance a b c)) (next_instance a b c))
             (stdin w)
             (stdout w
              ++ [:: Print ("Created fuzzy triangular number: "
                              ++ repr_text str a b c)%string;
                     Print ("Fuzzy derivative at the fuzzy point: "
                              ++ repr_text str (next_left a b) (next_center b)
                                           (next_right b c))%string])).
Proof.
case: w => h si so guard nguard.
rewrite /after_input /bind FuzzyTriangle_returns //=.
rewrite (@repr_instance _ _ _ _ a b c) /= ?nth_rcons_last //.
rewrite (@derivative_call _ _ _ (Some a) (Some c) b (sub b a) (sub c b)) /=;
  first by rewrite nth_rcons_last.
rewrite FuzzyTriangle_returns //=.
rewrite (@repr_instance _ _ _ _ (next_left a b) (next_center b) (next_right b c))
        /= ?nth_rcons_last //.
by rewrite /print /emit /= -!cats1 -!catA.
Qed.

Lemma after_input_outcome w a b c :
  [\/ (after_input str numpy a b c w).1 = Return tt,
      (after_input str numpy a b c w).1 = Raise (ValueError invalid_triplet)
    | exists k e, numpy k = Some e
                  /\ (after_input str numpy a b c w).1 = Raise e].
Proof.
case guard: (ge a b || ge b c).
  by rewrite after_input_invalid //; constructor 2.
case nguard: (next_guard a b c).
  by rewrite after_input_derivative_invalid //; constructor 2.
rewrite after_input_draws //.
set w2 := World _ _ _.
have at_fp : nth blank (heap w2) (size (heap w)) = instance a b c.
  exact: nth_rcons_prev.
by case: (draw_figure_outcome at_fp) => [ok|bad]; [constructor 1|constructor 3].
Qed.

(** Once three numbers are read, the rest of the script runs in the world
    where the three lines are consumed and the three prompts written. *)
Lemma script_after_reading w sa sb sc rest a b c :
  stdin w = [:: sa, sb, sc & rest] ->
  parse_float sa = Some a -> parse_float sb = Some b ->
  parse_float sc = Some c ->
  script w
  = try_except_ValueError (after_input str numpy a b c)
      (fun e => print ("Error: " ++ e)%string)
      (World (heap w) rest (stdout w ++ prompts N)).
Proof.
case: w => h si so /= -> pa pb pc.
rewrite /script /try_except_ValueError script_body_after_input.
rewrite /bind /input /float_of /= pa /= pb /= pc /=.
by rewrite -!cats1 -!catA.
Qed.


(** X15. The run that cannot compute its ticks. When both triplets pass the
    guard, the first [np.linspace] returns and the first [np.arange] (the
    ticks of the first panel) raises, the triangle is already drawn and
    nothing more is: if what numpy raised is a [ValueError], the handler
    prints it as an "Error: " line and the script returns; any other
    exception ends the script. Either way there is no [show]. *)
Theorem script_stops_at_ticks w sa sb sc rest a b c e :
  stdin w = [:: sa, sb, sc & rest] ->
  parse_float sa = Some a -> parse_float sb = Some b ->
  parse_float sc = Some c ->
  ge a b || ge b c = false -> next_guard a b c = false ->
  numpy (Linspace (sub a (two N)) (add c (two N)) 400) = None ->
  numpy (Arange (sub a (two N)) (add c (two N))) = Some e ->
  let shown :=
    stdout w ++ prompts N
    ++ [:: Print ("Created fuzzy triangular number: "
                    ++ repr_text str a b c)%string;
           Print ("Fuzzy derivative at the fuzzy point: "
                    ++ repr_text str (next_left a b) (next_center b)
                                 (next_right b c))%string;
           Membership a b c] in
  let store :=
    rcons (rcons (heap w) (instance a b c)) (next_instance a b c) in
  script w
  = if e is ValueError msg
    then (Return tt,
          World store rest (shown ++ [:: Print ("Error: " ++ msg)%string]))
    else (Raise e, World store rest shown).
Proof.
move=> in_w pa pb pc guard nguard ok bad /=.
rewrite (script_after_reading in_w pa pb pc) /try_except_ValueError.
rewrite after_input_draws // (@draw_figure_no_ticks _ _ a b c e) //=;
  first exact: nth_rcons_prev.
by case: e {bad} => [msg| | | |msg] /=;
   rewrite /print /emit /= -?cats1 -!catA.
Qed.

(** X2. The error of the derived number. When the number is built but the
    constructor called by [derivative] rejects the derived triplet, the
    script returns having written the three prompts, the line for the number
    and then the error line; nothing is drawn. *)
Theorem script_reports_failed_derivative w sa sb sc rest a b c :
  stdin w = [:: sa, sb, sc & rest] ->
  parse_float sa = Some a -> parse_float sb = Some b ->
  parse_float sc = Some c ->
  ge a b || ge b c = false -> next_guard a b c ->
  script w
  = (Return tt,
     World (rcons (rcons (heap w) (instance a b c)) blank) rest
           (stdout w ++ prompts N
            ++ [:: Print ("Created fuzzy triangular number: "
                            ++ repr_text str a b c)%string;
                   Print "Error: Invalid fuzzy number triplet. Must satisfy: left < center < right."])).
Proof.
move=> in_w pa pb pc guard nguard.
rewrite (script_after_reading in_w pa pb pc) /try_except_ValueError.
rewrite after_input_derivative_invalid //= /print /emit /=.
by rewrite -!cats1 -!catA.
Qed.

(** X3. Text that is not a number. [float] raises inside the [try], so the
    same handler catches it: when the first line that is not a number is the
    first, second or third, the script returns having written the prompts up
    to that line and then "Error: " followed by the message of [float]; the
    lines after it are not read and no object is created. *)
Theorem script_reports_bad_number w pre s rest :
  stdin w = pre ++ s :: rest -> size pre < 3 -> all parses pre ->
  parse_float s = None ->
  script w
  = (Return tt,
     World (heap w) rest
           (stdout w ++ take (size pre).+1 (prompts N)
            ++ [:: Print ("Error: " ++ parse_error s)%string])).
Proof.
case: w => h si so /= -> lt3 ok bad.
rewrite /script /try_except_ValueError script_body_after_input.
rewrite /bind /input /float_of.
case: pre lt3 ok => [|sa [|sb [|sc pre]]] //= _.
- by rewrite bad /= /print /emit /= -!cats1 -!catA.
- case: (parse_float sa) => [a|] //= _.
  by rewrite bad /= /print /emit /= -!cats1 -!catA.
- case: (parse_float sa) => [a|] //=; case: (parse_float sb) => [b|] //= _.
  by rewrite bad /= /print /emit /= -!cats1 -!catA.
Qed.

(** X4. End of input. [EOFError] is not a [ValueError]: when fewer than three
    lines are typed and each of them is a number, the script does not return:
    it ends with [EOFError] after one prompt more than there were lines, with
    no error line and no object created. *)
Theorem script_ends_at_eof w :
  size (stdin w) < 3 -> all parses (stdin w) ->
  script w
  = (Raise EOFError,
     World (heap w) [::] (stdout w ++ take (size (stdin w)).+1 (prompts N))).
Proof.
case: w => h si so /=.
rewrite /script /try_except_ValueError script_body_after_input.
rewrite /bind /input /float_of.
case: si => [|sa [|sb [|sc rest]]] //= _.
- by rewrite -!cats1.
- by case: (parse_float sa) => [a|] //= _; rewrite -!cats1 -!catA.
- case: (parse_float sa) => [a|] //=; case: (parse_float sb) => [b|] //= _.
  by rewrite -!cats1 -!catA.
Qed.

(** X5. How the script can end. Whatever is typed and whatever the store and
    the output held, the script ends in one of three ways: it returns; or it
    ends with [EOFError]; or it ends with an exception that a numpy call
    raised and that is not a [ValueError]. So no [ValueError] ever leaves the
    script, and the script itself never reads an attribute before it is
    set. *)
Theorem script_ends_three_ways w :
  [\/ (script w).1 = Return tt,
      (script w).1 = Raise EOFError
    | exists k e,
        [/\ numpy k = Some e, (forall msg, e <> ValueError msg)
          & (script w).1 = Raise e]].
Proof.
case: w => h si so.
rewrite /script /try_except_ValueError script_body_after_input.
rewrite /bind /input /float_of.
case: si => [|sa [|sb [|sc rest]]] /=; first by constructor 2.
- by case: (parse_float sa) => [a|] /=; [constructor 2 | constructor 1].
- case: (parse_float sa) => [a|] /=; last by constructor 1.
  by case: (parse_float sb) => [b|] /=; [constructor 2 | constructor 1].
case: (parse_float sa) => [a|] /=; last by constructor 1.
case: (parse_float sb) => [b|] /=; last by constructor 1.
case: (parse_float sc) => [c|] /=; last by constructor 1.
set w3 := World _ _ _.
case: (after_input _ _ _ _ _ _) (after_input_outcome w3 a b c) => [o w'] /=.
case=> [->|->|[k [e [raised ->]]]]; [by constructor 1 | by constructor 1 |].
case: e raised => [msg| | | |msg] raised /=; first by constructor 1.
- by constructor 3; exists k, AttributeError.
- by constructor 3; exists k, EOFError.
- by constructor 3; exists k, MemoryError.
- by constructor 3; exists k, (OtherError msg).
Qed.

Lemma after_input_class_built w a b c :
  class_built w -> class_built (after_input str numpy a b c w).2.
Proof.
move=> inv; have built_blank : built (@blank N) by left.
case guard: (ge a b || ge b c).
  by rewrite after_input_invalid //; apply: class_built_rcons.
have inv1 : class_built (World (rcons (heap w) (instance a b c)) (stdin w) (stdout w)).
  by apply: class_built_rcons => //; right; exists a, b, c.
case nguard: (next_guard a b c).
  rewrite after_input_derivative_invalid //.
  exact: (class_built_rcons (w := World _ _ _) _ _ inv1).
rewrite after_input_draws //; set w2 := World _ _ _.
have inv2 : class_built w2.
  apply: (class_built_rcons (w := World _ _ _) _ _ inv1).
  by right; exists (next_left a b), (next_center b), (next_right b c).
move=> i; have [-> _] := draw_figure_frame w2 (size (heap w)) a c.
exact: inv2.
Qed.

(** X6. The script keeps the store to what the class built. If every object
    of the store is blank or the instance of a triplet that passed the guard
    of [__init__], the same holds when the script ends, however it ends. *)
Theorem script_keeps_class_built w :
  class_built w -> class_built (script w).2.
Proof.
case: w => h si so inv0.
have inv si' so' : class_built (World h si' so') by exact: inv0.
rewrite /script /try_except_ValueError script_body_after_input.
rewrite /bind /input /float_of {inv0}.
case: si => [|sa [|sb [|sc rest]]] /=; first exact: inv.
- by case: (parse_float sa) => [a|] /=; exact: inv.
- case: (parse_float sa) => [a|] /=; last exact: inv.
  by case: (parse_float sb) => [b|] /=; exact: inv.
case: (parse_float sa) => [a|] /=; last exact: inv.
case: (parse_float sb) => [b|] /=; last exact: inv.
case: (parse_float sc) => [c|] /=; last exact: inv.
set w3 := World _ _ _.
have: class_built (after_input str numpy a b c w3).2.
  exact/after_input_class_built/inv.
by case: (after_input _ _ _ _ _ _) => [[[]|[msg| | | |msg]] w'].
Qed.

End Script_runs.

(** ** More on the derivative and the store *)

Section Derivative_more.

Variable N : pynum.
Implicit Types (w : world N) (self d : ref) (a b c : N).

(** X10. On a receiver built from [(a, b, c)], [derivative] never fails for a
    missing attribute: it either raises the constructor's [ValueError], which
    it does exactly when the guard of [__init__] fires on the derived triplet
    [(2b - 2(b - a), 2b, 2b + 2(c - b))], or returns a new reference to the
    instance of that triplet. *)
Theorem derivative_of_instance w self a b c :
  nth blank (heap w) self = instance a b c ->
  derivative self w
  = if next_guard a b c
    then (Raise (ValueError invalid_triplet),
          World (rcons (heap w) blank) (stdin w) (stdout w))
    else (Return (size (heap w)),
          World (rcons (heap w) (next_instance a b c)) (stdin w) (stdout w)).
Proof.
move=> at_self; rewrite (derivative_call at_self).
case nguard: (next_guard a b c); first exact: FuzzyTriangle_raises.
exact: FuzzyTriangle_returns.
Qed.

(** X11. Whatever the receiver and the arithmetic, an instance that
    [derivative] returns has gone through validation: it is the instance of
    a triplet [(l, c, r)] for which neither [l >= c] nor [c >= r] holds. *)
Theorem derivative_returns_validated w self d :
  (derivative self w).1 = Return d ->
  exists l c r,
    nth blank (heap (derivative self w).2) d = instance l c r
    /\ ge l c || ge c r = false.
Proof.
rewrite /derivative /bind /getattr /=.
case: (center _) => [c|] //; case: (left_spread _) => [ls|] //.
case: (right_spread _) => [rs|] //.
set nl := sub _ _; set nc := mul _ c; set nr := add _ _.
case guard: (ge nl nc || ge nc nr); first by rewrite FuzzyTriangle_raises.
rewrite FuzzyTriangle_returns //= => -[<-].
by exists nl, nc, nr; rewrite nth_rcons_last.
Qed.

(** X12. Repeated derivatives only append. After [n] calls in a row, started
    from any reference, the store is the old store followed by at most [n]
    new objects, and the console is untouched: no call changes or removes an
    object that existed. *)
Theorem derivative_n_only_appends n w self :
  exists objs,
    (derivative_n n self w).2
    = World (heap w ++ objs) (stdin w) (stdout w)
    /\ size objs <= n.
Proof.
elim: n w self => [|n IH] w self /=.
  by exists [::]; rewrite cats0; case: w.
rewrite /bind; case run: (derivative self w) => [[d|e] w1].
  have [objs [-> le_n]] := IH w1 d.
  have := derivative_world w self; rewrite run /=; case=> [->|[o ->]] /=.
    by exists objs; split=> //; apply: leqW.
  by exists (o :: objs); rewrite -cats1 -catA.
have := derivative_world w self; rewrite run /=; case=> [->|[o ->]] /=.
  by exists [::]; rewrite cats0; case: (w).
by exists [:: o]; rewrite cats1.
Qed.

(** X13. The store only ever holds what the class built. If every object is
    blank or the instance of a triplet that passed the guard, the same is
    true after any number of [derivative] calls. *)
Theorem derivative_n_class_built n w self :
  class_built w -> class_built (derivative_n n self w).2.
Proof.
elim: n w self => [|n IH] w self //= inv.
rewrite /bind; case run: (derivative self w) => [[d|e] w1].
  by apply: IH; have := derivative_class_built self inv; rewrite run.
by have := derivative_class_built self inv; rewrite run.
Qed.

End Derivative_more.

Section Spreads_exact.

Variable R : realDomainType.
Implicit Types (w : world (exact R)) (a b c : R).

Local Open Scope ring_scope.

(** X14. In exact arithmetic, whenever construction returns, the new instance
    has strictly positive spreads, and the spreads lead from the center back
    to the bounds: [left + left_spread = center] and
    [center + right_spread = right]. *)
Theorem constructed_spreads_exact w a b c self :
  (FuzzyTriangle (N := exact R) a b c w).1 = Return self ->
  exists ls rs,
    [/\ left_spread (nth blank (heap (FuzzyTriangle (N := exact R) a b c w).2) self)
        = Some ls,
        right_spread (nth blank (heap (FuzzyTriangle (N := exact R) a b c w).2) self)
        = Some rs,
        0 < ls /\ 0 < rs
      & a + ls = b /\ b + rs = c].
Proof.
case guard: (ge (p := exact R) a b || ge (p := exact R) b c).
  by rewrite FuzzyTriangle_raises.
rewrite FuzzyTriangle_returns //= => -[<-]; rewrite nth_rcons_last /=.
move: guard => /negbT; rewrite negb_or /= -!ltNge => /andP [lt_ab lt_bc].
exists (b - a), (c - b); split=> //; first by rewrite !subr_gt0.
by rewrite !(addrC _ (_ - _)) !subrK.
Qed.

End Spreads_exact.

(** ** The further theorems at concrete inputs *)

Section More_witnesses.

Local Open Scope ring_scope.

Lemma class_built_empty (N : pynum) si so : class_built (@World N [::] si so).
Proof. by move=> i; left; rewrite /= nth_nil. Qed.


Lemma script_reports_failed_derivative_witness :
  script show_big read_big not_a_number (@numpy_returns float64)
         (World [::] [:: "1e308"; "1.1e308"; "1.2e308"]%string [::])
  = (Return tt,
     World [:: instance (N := float64) f_1e308 f_1_1e308 f_1_2e308; blank]
           [::]
           (prompts float64
            ++ [:: Print "Created fuzzy triangular number: FuzzyTriangle(left=1e+308, center=1.1e+308, right=1.2e+308)";
                   Print "Error: Invalid fuzzy number triplet. Must satisfy: left < center < right."])).
Proof.
exact: (@script_reports_failed_derivative float64 show_big read_big
          not_a_number (@numpy_returns float64)
          (World [::] [:: "1e308"; "1.1e308"; "1.2e308"]%string [::])
          "1e308" "1.1e308" "1.2e308" [::] f_1e308 f_1_1e308 f_1_2e308
          erefl erefl erefl erefl erefl erefl).
Defined.

Lemma script_reports_bad_number_witness :
  script show_digit read_digit not_a_number (@numpy_returns float64)
         (World [::] [:: "1"; "two"; "3"]%string [::])
  = (Return tt,
     World [::] [:: "3"%string]
           [:: Prompt "Enter the left endpoint (a): ";
               Prompt "Enter the center value (b): ";
               Print "Error: could not convert string to float: 'two'"]).
Proof.
exact: (@script_reports_bad_number float64 show_digit read_digit not_a_number
          (@numpy_returns float64)
          (World [::] [:: "1"; "two"; "3"]%string [::])
          [:: "1"%string] "two" [:: "3"%string] erefl isT isT erefl).
Defined.

Lemma script_stops_at_ticks_witness :
  script show_wide read_wide not_a_number numpy_refuses
         (World [::] [:: "0"; "1"; "1e18"]%string [::])
  = (Return tt,
     World [:: instance (N := float64) 0%float 1%float f_1e18;
               instance (N := float64) 0%float 2%float f_2e18]
           [::]
           (prompts float64
            ++ [:: Print "Created fuzzy triangular number: FuzzyTriangle(left=0.0, center=1.0, right=1e+18)";
                   Print "Fuzzy derivative at the fuzzy point: FuzzyTriangle(left=0.0, center=2.0, right=2e+18)";
                   Membership (N := float64) 0%float 1%float f_1e18;
                   Print "Error: Maximum allowed size exceeded"])).
Proof.
exact: (@script_stops_at_ticks float64 show_wide read_wide not_a_number
          numpy_refuses (World [::] [:: "0"; "1"; "1e18"]%string [::])
          "0" "1" "1e18" [::] 0%float 1%float f_1e18
          (ValueError "Maximum allowed size exceeded")
          erefl erefl erefl erefl erefl erefl erefl erefl).
Defined.

Lemma script_ends_at_eof_witness :
  script show_digit read_digit not_a_number (@numpy_returns float64)
         (World [::] [:: "1"; "2"]%string [::])
  = (Raise EOFError, World [::] [::] (prompts float64)).
Proof.
exact: (@script_ends_at_eof float64 show_digit read_digit not_a_number
          (@numpy_returns float64)
          (World [::] [:: "1"; "2"]%string [::]) isT isT).
Defined.

Lemma script_keeps_class_built_witness :
  class_built
    (script show_digit read_digit not_a_number (@numpy_returns float64)
            (World [::] [:: "1"; "2"; "3"]%string [::])).2.
Proof.
exact: (@script_keeps_class_built float64 show_digit read_digit not_a_number
          (@numpy_returns float64)
          (World [::] [:: "1"; "2"; "3"]%string [::])
          (class_built_empty _ _)).
Defined.

Lemma repr_of_constructed_witness :
  (self <- FuzzyTriangle (N := float64) 1%float 2%float 3%float ;;
   __repr__ show_digit self) (start float64)
  = (Return "FuzzyTriangle(left=1.0, center=2.0, right=3.0)"%string,
     World [:: instance (N := float64) 1%float 2%float 3%float] [::] [::]).
Proof.
exact: (@repr_of_constructed float64 show_digit (start float64)
          1%float 2%float 3%float erefl).
Defined.

Lemma derivative_of_instance_witness :
  derivative 0
    (World [:: instance (N := float64) f_1e308 f_1_1e308 f_1_2e308] [::] [::])
  = (Raise (ValueError invalid_triplet),
     World [:: instance (N := float64) f_1e308 f_1_1e308 f_1_2e308; blank]
           [::] [::]).
Proof.
exact: (@derivative_of_instance float64
          (World [:: instance (N := float64) f_1e308 f_1_1e308 f_1_2e308]
                 [::] [::])
          0 f_1e308 f_1_1e308 f_1_2e308 erefl).
Defined.

Lemma derivative_returns_validated_witness :
  exists l c r : int,
    nth blank (heap (derivative 0 w123).2) 1 = instance (N := exact int) l c r
    /\ ge (p := exact int) l c || ge (p := exact int) c r = false.
Proof. exact: (@derivative_returns_validated (exact int) w123 0 1 erefl). Defined.

Lemma class_built_w123 : class_built w123.
Proof.
apply: (class_built_rcons (w := World [::] [::] [::]));
  first exact: class_built_empty.
by right; exists 1%:Z, 2%:Z, 3%:Z.
Qed.

Lemma derivative_n_class_built_witness :
  class_built (derivative_n 2 0 w123).2.
Proof.
exact: (@derivative_n_class_built (exact int) 2 w123 0 class_built_w123).
Defined.

Lemma constructed_spreads_exact_witness :
  exists ls rs : int,
    [/\ left_spread
          (nth blank
             (heap (FuzzyTriangle (N := exact int) 1%:Z 2%:Z 3%:Z
                                  (start (exact int))).2) 0) = Some ls,
        right_spread
          (nth blank
             (heap (FuzzyTriangle (N := exact int) 1%:Z 2%:Z 3%:Z
                                  (start (exact int))).2) 0) = Some rs,
        0 < ls /\ 0 < rs
      & 1%:Z + ls = 2%:Z /\ 2%:Z + rs = 3%:Z].
Proof.
exact: (@constructed_spreads_exact int (start (exact int)) 1%:Z 2%:Z 3%:Z 0
          erefl).
Defined.

End More_witnesses.
